(** * Appointment assistant back end (app.py): a shallow embedding

    The program is a small chat back end.  A message is handed to an external
    text-completion service that returns a JSON intent record; the record is
    checked against an in-memory calendar ([APPOINTMENTS]) and either a slot
    is booked or a clarifying sentence is returned.

    Conventions of the embedding:
    - a Python [str] is the list of its code points ([pystr]);
    - a value read from the intent record is [None] or a [str] ([pyval]);
    - the module-level dict [APPOINTMENTS] is threaded explicitly as a
      [gmap] from the key string to the booking record;
    - code that can raise runs in a small state-and-exception monad. *)

From Stdlib Require Import NArith String Ascii.
From stdpp Require Import gmap list.

Open Scope list_scope.

(** ** Python strings and values *)

Abbreviation pystr := (list N) (only parsing).
Abbreviation pyval := (option (list N)) (only parsing).

(** An ASCII literal of the source as a list of code points. *)
Definition lit (x : string) : pystr :=
  map N_of_ascii (list_ascii_of_string x).

(** [bool(v)] for [None] and for strings: only a non-empty string is true. *)
Definition truthy (v : pyval) : bool :=
  match v with
  | Some (_ :: _) => true
  | _ => false
  end.

(** [f"{v}"]: a string is inserted as it is, [None] prints as its name. *)
Definition fmt (v : pyval) : pystr :=
  match v with
  | Some x => x
  | None => lit "None"
  end.

(** [sep.join(l)] *)
Fixpoint join (sep : pystr) (l : list pystr) : pystr :=
  match l with
  | [] => []
  | [x] => x
  | x :: rest => x ++ sep ++ join sep rest
  end.

(** [str.isspace] on one code point (the whitespace table of CPython). *)
Definition isspace (c : N) : bool :=
  ((9 <=? c) && (c <=? 13) || (28 <=? c) && (c <=? 32)
   || (c =? 133) || (c =? 160) || (c =? 5760)
   || (8192 <=? c) && (c <=? 8202)
   || (c =? 8232) || (c =? 8233) || (c =? 8239) || (c =? 8287)
   || (c =? 12288))%N.

(** [str.lstrip()], [str.rstrip()] and [str.strip()] without argument. *)
Fixpoint lstrip (x : pystr) : pystr :=
  match x with
  | [] => []
  | c :: rest => if isspace c then lstrip rest else x
  end.

Definition rstrip (x : pystr) : pystr := rev (lstrip (rev x)).

Definition strip (x : pystr) : pystr := rstrip (lstrip x).

(** ** The calendar *)

(** The value stored under a key:
    [{"service": service, "name": name, "booked": True}]. *)
Record Booking := mkBooking {
  service : pyval;
  name : pyval;
  booked : bool
}.

(** [f"{date} {time}"] *)
Definition appointment_key (date time : pyval) : pystr :=
  fmt date ++ lit " " ++ fmt time.

(** The dict [APPOINTMENTS] as the module initialises it. *)
Definition APPOINTMENTS : gmap (list N) Booking :=
  <[lit "2024-09-20 10:00" :=
      mkBooking (Some (lit "dentist")) (Some (lit "John Doe")) true]>
  (<[lit "2024-09-20 14:00" :=
      mkBooking (Some (lit "haircut")) (Some (lit "Jane Smith")) true]> ∅).

Definition AVAILABLE_SLOTS : list pystr :=
  [lit "09:00"; lit "10:00"; lit "11:00"; lit "12:00"; lit "13:00";
   lit "14:00"; lit "15:00"; lit "16:00"; lit "17:00"].

(** [appointment_key not in APPOINTMENTS] *)
Definition check_availability (date time : pyval)
    (st : gmap (list N) Booking) : bool :=
  match st !! appointment_key date time with
  | Some _ => false
  | None => true
  end.

(** [APPOINTMENTS[appointment_key] = {...}; return True] *)
Definition book_appointment (date time service name : pyval)
    (st : gmap (list N) Booking) : bool * gmap (list N) Booking :=
  (true, <[appointment_key date time := mkBooking service name true]> st).

(** ** The intent record

    The dict returned by the extraction step.  [d.get(k)] is [None] both for
    a key that is absent and for a key bound to JSON [null], so one field of
    type [pyval] per key read by the program is enough. *)
Record IntentRecord := mkIntent {
  service_type : pyval;
  date : pyval;
  time : pyval;
  user_name : pyval;
  intent : pyval
}.

(** ** The dialogue policy *)

(** The intent value of a booking request. *)
Definition book_intent : pyval := Some (lit "book_appointment").


Definition greeting_text : pystr :=
  lit "Hello! I'm your appointment assistant. I can help you book appointments. What kind of appointment would you like to schedule?".

Definition fallback_text : pystr :=
  lit "I'm here to help you book appointments. Could you please tell me what kind of appointment you need and when you'd like to schedule it?".

(** The list [missing_info] built by the three [if not ...: append] tests. *)
Definition missing_info (service date time : pyval) : list pystr :=
  let missing_info := [] in
  let missing_info :=
    if negb (truthy service) then missing_info ++ [lit "type of appointment"]
    else missing_info in
  let missing_info :=
    if negb (truthy date) then missing_info ++ [lit "date"]
    else missing_info in
  let missing_info :=
    if negb (truthy time) then missing_info ++ [lit "time"]
    else missing_info in
  missing_info.

Definition generate_response (user_message : pystr)
    (extracted_info : IntentRecord) (st : gmap (list N) Booking)
    : pystr * gmap (list N) Booking :=
  let intent := intent extracted_info in
  if decide (intent = Some (lit "greeting")) then
    (greeting_text, st)
  else if decide (intent = Some (lit "book_appointment")) then
    let service := service_type extracted_info in
    let date := date extracted_info in
    let time := time extracted_info in
    let name := user_name extracted_info in
    match missing_info service date time with
    | (_ :: _) as missing_info =>
        let missing_str := join (lit ", ") missing_info in
        (lit "I need a bit more information. Could you please provide the "
           ++ missing_str ++ lit "?", st)
    | [] =>
        if check_availability date time st then
          if truthy name then
            let '(_, st) := book_appointment date time service name st in
            (lit "Perfect! Your " ++ fmt service ++ lit " appointment for "
               ++ fmt date ++ lit " at " ++ fmt time ++ lit " is confirmed, "
               ++ fmt name ++ lit ". Is there anything else I can help you with?",
             st)
          else
            (lit "Great! I have a " ++ fmt service
               ++ lit " appointment available on " ++ fmt date ++ lit " at "
               ++ fmt time
               ++ lit ". What's your name so I can confirm the booking?", st)
        else
          (lit "I'm sorry, but " ++ fmt time ++ lit " on " ++ fmt date
             ++ lit " is already booked. Here are some available times: "
             ++ join (lit ", ") (take 3 AVAILABLE_SLOTS)
             ++ lit ". Would any of these work?", st)
    end
  else
    (fallback_text, st).

(** ** State and exceptions

    The process state seen by one request: the calendar, and the requests
    sent so far to the completion service (system prompt, user message), the
    only outbound effect of the program. *)
Record World := mkWorld {
  appointments : gmap (list N) Booking;
  outbound : list (list N * list N)
}.

(** The instances of [Exception] that the modelled code can meet.  What is
    raised outside that class (an interrupt, an exit) is not modelled. *)
Inductive exn :=
  | OpenAIError
  | IndexError
  | AttributeError
  | JSONDecodeError.

Inductive result (A : Type) :=
  | Ok (a : A)
  | Raise (e : exn).
Arguments Ok {A} a.
Arguments Raise {A} e.

(** A computation reads and writes the world and returns or raises; what it
    wrote before raising stays written. *)
Definition M (A : Type) : Type := World -> result A * World.

Definition ret {A} (a : A) : M A := fun w => (Ok a, w).

Definition raise {A} (e : exn) : M A := fun w => (Raise e, w).

Definition bind {A B} (m : M A) (k : A -> M B) : M B :=
  fun w =>
    match m w with
    | (Ok a, w') => k a w'
    | (Raise e, w') => (Raise e, w')
    end.

(** [try: body  except Exception as e: handler] *)
Definition try_except {A} (body : M A) (handler : exn -> M A) : M A :=
  fun w =>
    match body w with
    | (Ok a, w') => (Ok a, w')
    | (Raise e, w') => handler e w'
    end.

(** A value that was computed outside the monad. *)
Definition lift {A} (r : result A) : M A := fun w => (r, w).

(** A function of the calendar run on the calendar of the world. *)
Definition on_appointments {A}
    (f : gmap (list N) Booking -> A * gmap (list N) Booking) : M A :=
  fun w =>
    let '(a, st) := f (appointments w) in
    (Ok a, mkWorld st (outbound w)).

Declare Scope py_scope.
Delimit Scope py_scope with py.
Notation "x <- m ;; k" := (bind m (fun x => k))
  (at level 100, m at next level, right associativity) : py_scope.
Open Scope py_scope.

(** [l[0]] *)
Definition index0 {A} (l : list A) : M A :=
  match l with
  | x :: _ => ret x
  | [] => raise IndexError
  end.

(** [v.strip()]: [None] has no such attribute. *)
Definition strip_method (v : pyval) : M pystr :=
  match v with
  | Some x => ret (strip x)
  | None => raise AttributeError
  end.

(** [d.get(k, default)] on a JSON object whose values are [null] or strings. *)
Definition dict_get (d : gmap (list N) (option (list N))) (k : pystr)
    (default : pyval) : pyval :=
  match d !! k with
  | Some v => v
  | None => default
  end.

(** ** The extraction step *)

Definition dq : pystr := [34%N].
Definition nl : pystr := [10%N].

(** The text of [system_prompt] before and after the current date. *)
Definition system_prompt_head : pystr :=
  nl ++ lit "You are an appointment extraction assistant. Extract appointment information from user messages." ++ nl
  ++ lit "Return a JSON object with these fields:" ++ nl
  ++ lit "- service_type: type of appointment (dentist, haircut, meeting, etc.)" ++ nl
  ++ lit "- date: date in YYYY-MM-DD format (if relative like " ++ dq ++ lit "tomorrow" ++ dq ++ lit ", convert to actual date)" ++ nl
  ++ lit "- time: time in HH:MM format (24-hour)" ++ nl
  ++ lit "- user_name: user's name if mentioned" ++ nl
  ++ lit "- intent: " ++ dq ++ lit "book_appointment" ++ dq ++ lit " if they want to book, "
  ++ dq ++ lit "greeting" ++ dq ++ lit " if just saying hi, "
  ++ dq ++ lit "unclear" ++ dq ++ lit " if unclear" ++ nl
  ++ nl
  ++ lit "If any field is not clear or missing, use null for that field." ++ nl
  ++ lit "Today's date is ".

Definition system_prompt_tail : pystr :=
  nl ++ nl
  ++ lit "Examples:" ++ nl
  ++ lit "User: " ++ dq ++ lit "Hi, I want to book a dentist appointment for tomorrow at 2 PM" ++ dq ++ nl
  ++ lit "Response: {" ++ dq ++ lit "service_type" ++ dq ++ lit ": " ++ dq ++ lit "dentist" ++ dq
  ++ lit ", " ++ dq ++ lit "date" ++ dq ++ lit ": " ++ dq ++ lit "2024-09-21" ++ dq
  ++ lit ", " ++ dq ++ lit "time" ++ dq ++ lit ": " ++ dq ++ lit "14:00" ++ dq
  ++ lit ", " ++ dq ++ lit "user_name" ++ dq ++ lit ": null, "
  ++ dq ++ lit "intent" ++ dq ++ lit ": " ++ dq ++ lit "book_appointment" ++ dq ++ lit "}" ++ nl
  ++ nl
  ++ lit "User: " ++ dq ++ lit "Hello" ++ dq ++ nl
  ++ lit "Response: {" ++ dq ++ lit "service_type" ++ dq ++ lit ": null, "
  ++ dq ++ lit "date" ++ dq ++ lit ": null, " ++ dq ++ lit "time" ++ dq ++ lit ": null, "
  ++ dq ++ lit "user_name" ++ dq ++ lit ": null, "
  ++ dq ++ lit "intent" ++ dq ++ lit ": " ++ dq ++ lit "greeting" ++ dq ++ lit "}" ++ nl.

(** The dict returned by the [except] branch of [parse_date_time]. *)
Definition fallback_intent : IntentRecord :=
  mkIntent None None None None (Some (lit "unclear")).

(** What [json.loads] can return: a JSON object, seen through the keys the
    program reads, or any other JSON value (a number, a string, a list, ...). *)
Inductive json_value :=
  | JObject (r : IntentRecord)
  | JOther.

(** [extracted_info.get(...)]: only a dict has the method. *)
Definition get_method (v : json_value) : M IntentRecord :=
  match v with
  | JObject r => ret r
  | JOther => raise AttributeError
  end.

(** The reply of the chat endpoint; [extracted_info] is absent from the two
    short replies. *)
Record ChatReply := mkReply {
  response : pystr;
  extracted_info : option json_value
}.

Section Gateway.

(** [datetime.now().strftime("%Y-%m-%d")] at the time of the request. *)
Variable today : pystr.

(** [openai.ChatCompletion.create] for a system prompt and a user message
    (model, temperature and token bound are fixed by the program): it
    raises, or returns the [message.content] of each entry of [choices]. *)
Variable ChatCompletion_create : pystr -> pystr -> result (list (option (list N))).

(** [json.loads] on a string: it raises, or returns the decoded value. *)
Variable json_loads : pystr -> result json_value.

(** The outbound call, recorded in the world. *)
Definition create (system_prompt user_message : pystr)
    : M (list (option (list N))) :=
  fun w =>
    (ChatCompletion_create system_prompt user_message,
     mkWorld (appointments w) (outbound w ++ [(system_prompt, user_message)])).

(** The body of the [try] of [parse_date_time].  The message printed on the
    console by the [except] branch is not part of the world. *)
Definition parse_date_time_body (user_message : pystr) : M json_value :=
  let system_prompt := system_prompt_head ++ today ++ system_prompt_tail in
  response <- create system_prompt user_message ;;
  choice <- index0 response ;;
  content <- strip_method choice ;;
  extracted_info <- lift (json_loads content) ;;
  ret extracted_info.

Definition parse_date_time (user_message : pystr) : M json_value :=
  try_except (parse_date_time_body user_message)
    (fun e => ret (JObject fallback_intent)).

(** The handler of [POST /chat], on the decoded request body.  The call of
    [generate_response] starts with [extracted_info.get], which raises on a
    value that is no dict. *)
Definition chat (data : gmap (list N) (option (list N))) : M ChatReply :=
  try_except
    (let user_message := dict_get data (lit "message") (Some []) in
     stripped <- strip_method user_message ;;
     if negb (truthy (Some stripped)) then
       ret (mkReply (lit "Please enter a message.") None)
     else
       extracted_info <- parse_date_time (fmt user_message) ;;
       bot_response <-
         (r <- get_method extracted_info ;;
          on_appointments (generate_response (fmt user_message) r)) ;;
       ret (mkReply bot_response (Some extracted_info)))
    (fun e =>
       ret (mkReply (lit "Sorry, I encountered an error. Please try again.") None)).

End Gateway.

(** The handler of [GET /appointments]: [jsonify(APPOINTMENTS)], the whole
    store. *)
Definition view_appointments : M (gmap (list N) Booking) :=
  fun w => (Ok (appointments w), w).

(** One request to [POST /chat] with what surrounds it: the date of the day,
    how the completion service and the decoder behave at that moment, and
    the request body. *)
Record Turn := mkTurn {
  turn_today : pystr;
  turn_service : pystr -> pystr -> result (list (option (list N)));
  turn_decoder : pystr -> result json_value;
  turn_data : gmap (list N) (option (list N))
}.

(** The process serving a sequence of requests, one after the other: what
    each request got, and the world at the end. *)
Fixpoint serve (turns : list Turn) (w : World)
    : list (result ChatReply) * World :=
  match turns with
  | [] => ([], w)
  | t :: rest =>
      let '(reply, w1) :=
        chat (turn_today t) (turn_service t) (turn_decoder t) (turn_data t) w in
      let '(replies, w2) := serve rest w1 in
      (reply :: replies, w2)
  end.

(** Running the dialogue policy over a sequence of turns. *)
Fixpoint run (turns : list (list N * IntentRecord))
    (st : gmap (list N) Booking) : gmap (list N) Booking :=
  match turns with
  | [] => st
  | (user_message, extracted_info) :: rest =>
      run rest (snd (generate_response user_message extracted_info st))
  end.


(** ** Concrete services for running whole turns *)

(** A service that answers with one choice holding a fixed text. *)
Definition service_says (content : list N)
    : list N -> list N -> result (list (option (list N))) :=
  fun _ _ => Ok [Some content].

(** A decoder that knows one text. *)
Definition decodes (text : list N) (v : json_value)
    : list N -> result json_value :=
  fun x => if decide (x = text) then Ok v else Raise JSONDecodeError.

(** ** Notions used by the statements *)

(** The labels of the required fields that are missing, in the order
    service, date, time: what the clarification request has to name. *)
Definition missing_labels (r : IntentRecord) : list pystr :=
  flat_map (fun p : option (list N) * list N =>
              if truthy (fst p) then [] else [snd p])
    [(service_type r, lit "type of appointment");
     (date r, lit "date");
     (time r, lit "time")].

(** Every record of the store has its booked flag set. *)
Definition all_booked (st : gmap (list N) Booking) : Prop :=
  forall k b, st !! k = Some b -> booked b = true.


(** * Properties *)

(** ** The program on concrete inputs *)

Example seed_taken :
  check_availability (Some (lit "2024-09-20")) (Some (lit "10:00")) APPOINTMENTS = false.
Proof. vm_compute. reflexivity. Qed.

Example seed_free :
  check_availability (Some (lit "2024-09-21")) (Some (lit "10:00")) APPOINTMENTS = true.
Proof. vm_compute. reflexivity. Qed.

Example strip_ex : strip (lit "  a b ") = lit "a b".
Proof. vm_compute. reflexivity. Qed.

Example strip_unicode : strip [8195; 10; 120; 8203; 9; 12288]%N = [120; 8203]%N.
Proof. vm_compute. reflexivity. Qed.

Example run_two_turns :
  let alice := mkIntent (Some (lit "dentist")) (Some (lit "2024-09-21"))
                 (Some (lit "10:00")) (Some (lit "Alice")) book_intent in
  let bob := mkIntent (Some (lit "haircut")) (Some (lit "2024-09-21"))
               (Some (lit "10:00")) (Some (lit "Bob")) book_intent in
  run [(lit "a", alice); (lit "b", bob)] APPOINTMENTS !! lit "2024-09-21 10:00"
  = Some (mkBooking (Some (lit "dentist")) (Some (lit "Alice")) true).
Proof. vm_compute. reflexivity. Qed.

Example conflict_ex :
  generate_response (lit "x")
    (mkIntent (Some (lit "dentist")) (Some (lit "2024-09-20")) (Some (lit "10:00"))
       (Some (lit "Alice")) (Some (lit "book_appointment"))) APPOINTMENTS
  = (lit "I'm sorry, but 10:00 on 2024-09-20 is already booked. Here are some available times: 09:00, 10:00, 11:00. Would any of these work?", APPOINTMENTS).
Proof. vm_compute. reflexivity. Qed.

(** ** Facts about strings and values *)

Lemma truthy_Some (x : list N) : x <> [] -> truthy (Some x) = true.
Proof. destruct x; [congruence | reflexivity]. Qed.

Lemma truthy_inv (v : option (list N)) :
  truthy v = true -> exists x, v = Some x /\ x <> [].
Proof.
  destruct v as [[|c x]|]; simpl; try discriminate.
  intros _. exists (c :: x). split; [reflexivity | discriminate].
Qed.

Lemma truthy_empty : truthy (Some []) = false.
Proof. reflexivity. Qed.

Lemma truthy_None : truthy None = false.
Proof. reflexivity. Qed.

Lemma missing_info_nil (s d t : option (list N)) :
  truthy s = true -> truthy d = true -> truthy t = true ->
  missing_info s d t = [].
Proof. unfold missing_info. intros -> -> ->. reflexivity. Qed.

Lemma missing_info_cons (s d t : option (list N)) :
  truthy s && truthy d && truthy t = false ->
  exists l ls, missing_info s d t = l :: ls.
Proof.
  unfold missing_info.
  destruct (truthy s), (truthy d), (truthy t); simpl; try discriminate;
    intros _; eexists; eexists; reflexivity.
Qed.

(** ** Unfolding the dialogue policy by intent *)

Lemma generate_response_greeting (msg : list N) (r : IntentRecord) (st : gmap (list N) Booking) :
  intent r = Some (lit "greeting") ->
  generate_response msg r st = (greeting_text, st).
Proof.
  intros Hi. unfold generate_response. rewrite Hi.
  rewrite decide_True by reflexivity. reflexivity.
Qed.

Lemma generate_response_book (msg : list N) (r : IntentRecord) (st : gmap (list N) Booking) :
  intent r = book_intent ->
  generate_response msg r st =
    match missing_info (service_type r) (date r) (time r) with
    | (_ :: _) as missing =>
        (lit "I need a bit more information. Could you please provide the "
           ++ join (lit ", ") missing ++ lit "?", st)
    | [] =>
        if check_availability (date r) (time r) st then
          if truthy (user_name r) then
            (lit "Perfect! Your " ++ fmt (service_type r)
               ++ lit " appointment for " ++ fmt (date r) ++ lit " at "
               ++ fmt (time r) ++ lit " is confirmed, " ++ fmt (user_name r)
               ++ lit ". Is there anything else I can help you with?",
             <[appointment_key (date r) (time r) :=
                 mkBooking (service_type r) (user_name r) true]> st)
          else
            (lit "Great! I have a " ++ fmt (service_type r)
               ++ lit " appointment available on " ++ fmt (date r)
               ++ lit " at " ++ fmt (time r)
               ++ lit ". What's your name so I can confirm the booking?", st)
        else
          (lit "I'm sorry, but " ++ fmt (time r) ++ lit " on " ++ fmt (date r)
             ++ lit " is already booked. Here are some available times: "
             ++ join (lit ", ") (take 3 AVAILABLE_SLOTS)
             ++ lit ". Would any of these work?", st)
    end.
Proof.
  intros Hi. unfold generate_response, book_intent in *. rewrite Hi.
  rewrite decide_False by (vm_compute; discriminate).
  rewrite decide_True by reflexivity.
  reflexivity.
Qed.

Lemma generate_response_other (msg : list N) (r : IntentRecord) (st : gmap (list N) Booking) :
  intent r <> Some (lit "greeting") -> intent r <> book_intent ->
  generate_response msg r st = (fallback_text, st).
Proof.
  intros H1 H2. unfold generate_response, book_intent in *.
  rewrite decide_False by assumption. rewrite decide_False by assumption.
  reflexivity.
Qed.

(** ** The slot store *)

Lemma check_availability_true (d t : option (list N)) (st : gmap (list N) Booking) :
  check_availability d t st = true <-> st !! appointment_key d t = None.
Proof.
  unfold check_availability.
  destruct (st !! appointment_key d t); split; congruence.
Qed.

Lemma check_availability_false (d t : option (list N)) (st : gmap (list N) Booking) :
  check_availability d t st = false <-> is_Some (st !! appointment_key d t).
Proof.
  unfold check_availability.
  destruct (st !! appointment_key d t) as [b|]; split; try congruence.
  - intros _. exists b. reflexivity.
  - intros [b Hb]. discriminate.
Qed.

(** C2: a slot whose key has no record in the store is reported available,
    and [check_availability] is true exactly when the key has no record;
    after [book_appointment] for a date and time, with any service and name,
    [check_availability] is false for that same date and time. *)
Theorem check_availability_book (d t : option (list N)) (st : gmap (list N) Booking) :
  (check_availability d t st = true <-> st !! appointment_key d t = None) /\
  (forall sv nm : option (list N),
     check_availability d t (snd (book_appointment d t sv nm st)) = false).
Proof.
  split; [apply check_availability_true |].
  intros sv nm. apply check_availability_false. simpl.
  rewrite lookup_insert_eq. eexists; reflexivity.
Qed.

(** ** The booking branches *)

(** Enters the part of [generate_response] that follows the test on
    [missing_info], for a record whose service, date and time are known not
    to be empty. *)
Ltac booking_branch :=
  rewrite generate_response_book by reflexivity;
  cbn [service_type date time user_name];
  rewrite missing_info_nil by (apply truthy_Some; assumption).

(** C1: for an intent record of category book_appointment whose service,
    date, time and name are all present (strings that are not empty) and
    whose slot key has no record, the policy returns the confirmation
    sentence made of service, date, time and name, and the store it leaves
    is the old one with one more record, at that key, holding the supplied
    service and name with the booked flag set; no other key changes. *)
Theorem generate_response_confirms
    (msg sv d t nm : list N) (st : gmap (list N) Booking) :
  sv <> [] -> d <> [] -> t <> [] -> nm <> [] ->
  st !! (d ++ lit " " ++ t) = None ->
  let r := mkIntent (Some sv) (Some d) (Some t) (Some nm) book_intent in
  let k := d ++ lit " " ++ t in
  let st' := snd (generate_response msg r st) in
  fst (generate_response msg r st) =
    lit "Perfect! Your " ++ sv ++ lit " appointment for " ++ d ++ lit " at "
      ++ t ++ lit " is confirmed, " ++ nm
      ++ lit ". Is there anything else I can help you with?"
  /\ st' !! k = Some (mkBooking (Some sv) (Some nm) true)
  /\ (forall k', k' <> k -> st' !! k' = st !! k')
  /\ dom st' = {[k]} ∪ dom st
  /\ size st' = S (size st).
Proof.
  intros Hsv Hd Ht Hnm Hfree r k st'.
  assert (Hgr : generate_response msg r st =
    (lit "Perfect! Your " ++ sv ++ lit " appointment for " ++ d ++ lit " at "
       ++ t ++ lit " is confirmed, " ++ nm
       ++ lit ". Is there anything else I can help you with?",
     <[k := mkBooking (Some sv) (Some nm) true]> st)).
  { subst r. booking_branch.
    replace (check_availability (Some d) (Some t) st) with true
      by (symmetry; apply check_availability_true; exact Hfree).
    rewrite (truthy_Some nm Hnm). reflexivity. }
  subst st'. rewrite Hgr. cbn [fst snd].
  split; [reflexivity |].
  split; [apply lookup_insert_eq |].
  split; [intros k' Hk'; apply lookup_insert_ne; congruence |].
  split; [apply dom_insert_L | apply map_size_insert_None; exact Hfree].
Qed.

Lemma generate_response_confirms_witness :
  let st := APPOINTMENTS in
  let r := mkIntent (Some (lit "dentist")) (Some (lit "2024-09-21"))
             (Some (lit "10:00")) (Some (lit "Alice")) book_intent in
  fst (generate_response (lit "hi") r st) =
    lit "Perfect! Your dentist appointment for 2024-09-21 at 10:00 is confirmed, Alice. Is there anything else I can help you with?"
  /\ snd (generate_response (lit "hi") r st) !! lit "2024-09-21 10:00"
     = Some (mkBooking (Some (lit "dentist")) (Some (lit "Alice")) true)
  /\ size (snd (generate_response (lit "hi") r st)) = 3.
Proof.
  intros st r.
  destruct (generate_response_confirms (lit "hi") (lit "dentist")
              (lit "2024-09-21") (lit "10:00") (lit "Alice") APPOINTMENTS)
    as (H1 & H2 & _ & _ & H5);
    [ vm_compute; discriminate | vm_compute; discriminate
    | vm_compute; discriminate | vm_compute; discriminate
    | vm_compute; reflexivity | ].
  split; [exact H1 |]. split; [exact H2 | exact H5].
Defined.

(** C3: for an intent record of category book_appointment whose service,
    date and time are present, whose name is absent ([None] or the empty
    string) and whose slot key has no record, the policy answers that the
    slot is available and asks for the name; the store is returned as it
    was, so the key still has no record. *)
Theorem generate_response_asks_name
    (msg sv d t : list N) (nm : option (list N)) (st : gmap (list N) Booking) :
  sv <> [] -> d <> [] -> t <> [] -> truthy nm = false ->
  st !! (d ++ lit " " ++ t) = None ->
  let r := mkIntent (Some sv) (Some d) (Some t) nm book_intent in
  generate_response msg r st =
    (lit "Great! I have a " ++ sv ++ lit " appointment available on " ++ d
       ++ lit " at " ++ t
       ++ lit ". What's your name so I can confirm the booking?", st)
  /\ snd (generate_response msg r st) !! (d ++ lit " " ++ t) = None.
Proof.
  intros Hsv Hd Ht Hnm Hfree r.
  assert (Hgr : generate_response msg r st =
    (lit "Great! I have a " ++ sv ++ lit " appointment available on " ++ d
       ++ lit " at " ++ t
       ++ lit ". What's your name so I can confirm the booking?", st)).
  { subst r. booking_branch.
    replace (check_availability (Some d) (Some t) st) with true
      by (symmetry; apply check_availability_true; exact Hfree).
    rewrite Hnm. reflexivity. }
  rewrite Hgr. split; [reflexivity | exact Hfree].
Qed.

Lemma generate_response_asks_name_witness :
  generate_response (lit "hi")
    (mkIntent (Some (lit "dentist")) (Some (lit "2024-09-21"))
       (Some (lit "10:00")) None book_intent) APPOINTMENTS
  = (lit "Great! I have a dentist appointment available on 2024-09-21 at 10:00. What's your name so I can confirm the booking?",
     APPOINTMENTS).
Proof.
  refine (proj1 (generate_response_asks_name (lit "hi") (lit "dentist")
                   (lit "2024-09-21") (lit "10:00") None APPOINTMENTS
                   _ _ _ _ _));
    solve [ vm_compute; discriminate | vm_compute; reflexivity ].
Defined.

Lemma suggested_slots :
  join (lit ", ") (take 3 AVAILABLE_SLOTS) = lit "09:00, 10:00, 11:00".
Proof. vm_compute. reflexivity. Qed.

(** C4: for an intent record of category book_appointment whose service,
    date and time are present and whose slot key already has a record, the
    policy returns the conflict sentence, which names the requested time and
    date and carries the first three entries of [AVAILABLE_SLOTS] joined
    with commas, that is 09:00, 10:00, 11:00; the store, and with it the
    record at that key, is returned unchanged. *)
Theorem generate_response_conflict
    (msg sv d t : list N) (nm : option (list N)) (b : Booking)
    (st : gmap (list N) Booking) :
  sv <> [] -> d <> [] -> t <> [] ->
  st !! (d ++ lit " " ++ t) = Some b ->
  let r := mkIntent (Some sv) (Some d) (Some t) nm book_intent in
  generate_response msg r st =
    (lit "I'm sorry, but " ++ t ++ lit " on " ++ d
       ++ lit " is already booked. Here are some available times: "
       ++ join (lit ", ") (take 3 AVAILABLE_SLOTS)
       ++ lit ". Would any of these work?", st)
  /\ join (lit ", ") (take 3 AVAILABLE_SLOTS) = lit "09:00, 10:00, 11:00"
  /\ snd (generate_response msg r st) !! (d ++ lit " " ++ t) = Some b.
Proof.
  intros Hsv Hd Ht Htaken r.
  assert (Hgr : generate_response msg r st =
    (lit "I'm sorry, but " ++ t ++ lit " on " ++ d
       ++ lit " is already booked. Here are some available times: "
       ++ join (lit ", ") (take 3 AVAILABLE_SLOTS)
       ++ lit ". Would any of these work?", st)).
  { subst r. booking_branch.
    replace (check_availability (Some d) (Some t) st) with false
      by (symmetry; apply check_availability_false; exists b; exact Htaken).
    reflexivity. }
  rewrite Hgr. split; [reflexivity |].
  split; [exact suggested_slots | exact Htaken].
Qed.

Lemma generate_response_conflict_witness :
  generate_response (lit "hi")
    (mkIntent (Some (lit "dentist")) (Some (lit "2024-09-20"))
       (Some (lit "10:00")) (Some (lit "Alice")) book_intent) APPOINTMENTS
  = (lit "I'm sorry, but 10:00 on 2024-09-20 is already booked. Here are some available times: 09:00, 10:00, 11:00. Would any of these work?",
     APPOINTMENTS)
  /\ APPOINTMENTS !! lit "2024-09-20 10:00"
     = Some (mkBooking (Some (lit "dentist")) (Some (lit "John Doe")) true).
Proof.
  destruct (generate_response_conflict (lit "hi") (lit "dentist")
              (lit "2024-09-20") (lit "10:00") (Some (lit "Alice"))
              (mkBooking (Some (lit "dentist")) (Some (lit "John Doe")) true)
              APPOINTMENTS)
    as (H1 & _ & H3);
    [ vm_compute; discriminate | vm_compute; discriminate
    | vm_compute; discriminate | vm_compute; reflexivity | ].
  split; [exact H1 |]. rewrite H1 in H3. exact H3.
Defined.

(** ** The clarification branch *)

Lemma missing_info_labels (r : IntentRecord) :
  missing_info (service_type r) (date r) (time r) = missing_labels r.
Proof.
  unfold missing_info, missing_labels. cbn [flat_map fst snd].
  destruct (truthy (service_type r)), (truthy (date r)), (truthy (time r));
    reflexivity.
Qed.

Lemma generate_response_missing (msg : list N) (r : IntentRecord)
    (st : gmap (list N) Booking) :
  intent r = book_intent ->
  truthy (service_type r) && truthy (date r) && truthy (time r) = false ->
  generate_response msg r st =
    (lit "I need a bit more information. Could you please provide the "
       ++ join (lit ", ") (missing_info (service_type r) (date r) (time r))
       ++ lit "?", st).
Proof.
  intros Hi Hm. rewrite generate_response_book by exact Hi.
  destruct (missing_info_cons _ _ _ Hm) as (l & ls & ->). reflexivity.
Qed.

(** C5: for an intent record of category book_appointment in which at least
    one of service, date, time is missing (the name plays no part), the
    policy returns the clarification request that names exactly the missing
    fields, in the order service, date, time, joined with commas, and the
    store is returned unchanged. *)
Theorem generate_response_clarifies (msg : list N) (r : IntentRecord)
    (st : gmap (list N) Booking) :
  intent r = book_intent ->
  truthy (service_type r) && truthy (date r) && truthy (time r) = false ->
  generate_response msg r st =
    (lit "I need a bit more information. Could you please provide the "
       ++ join (lit ", ") (missing_labels r) ++ lit "?", st).
Proof.
  intros Hi Hm. rewrite generate_response_missing by assumption.
  rewrite missing_info_labels. reflexivity.
Qed.

Lemma generate_response_clarifies_witness :
  generate_response (lit "book me")
    (mkIntent None (Some (lit "2024-09-21")) None (Some (lit "Alice")) book_intent)
    APPOINTMENTS
  = (lit "I need a bit more information. Could you please provide the type of appointment, time?",
     APPOINTMENTS).
Proof.
  refine (generate_response_clarifies (lit "book me")
            (mkIntent None (Some (lit "2024-09-21")) None (Some (lit "Alice"))
               book_intent) APPOINTMENTS _ _);
    reflexivity.
Defined.

(** C10: a required field is missing when it is false as a Python value, not
    only when it is [None]: for an intent record of category
    book_appointment in which service, date or time is the empty string, the
    policy returns the clarification request, the label of each such field
    is among the fields it names, and the store is returned unchanged. *)
Theorem generate_response_empty_is_missing (msg : list N) (r : IntentRecord)
    (st : gmap (list N) Booking) :
  intent r = book_intent ->
  service_type r = Some [] \/ date r = Some [] \/ time r = Some [] ->
  generate_response msg r st =
    (lit "I need a bit more information. Could you please provide the "
       ++ join (lit ", ") (missing_info (service_type r) (date r) (time r))
       ++ lit "?", st)
  /\ (service_type r = Some [] ->
      lit "type of appointment" ∈ missing_info (service_type r) (date r) (time r))
  /\ (date r = Some [] ->
      lit "date" ∈ missing_info (service_type r) (date r) (time r))
  /\ (time r = Some [] ->
      lit "time" ∈ missing_info (service_type r) (date r) (time r)).
Proof.
  intros Hi He. split.
  - apply generate_response_missing; [exact Hi |].
    destruct He as [-> | [-> | ->]]; simpl;
      rewrite ?andb_false_r; reflexivity.
  - unfold missing_info.
    repeat split; intros ->; simpl;
      destruct (truthy (service_type r)), (truthy (date r)), (truthy (time r));
      simpl; rewrite ?elem_of_app, ?elem_of_cons; tauto.
Qed.

Lemma generate_response_empty_is_missing_witness :
  generate_response (lit "book me")
    (mkIntent (Some (lit "dentist")) (Some []) (Some (lit "10:00")) None book_intent)
    APPOINTMENTS
  = (lit "I need a bit more information. Could you please provide the date?",
     APPOINTMENTS).
Proof.
  refine (proj1 (generate_response_empty_is_missing (lit "book me")
            (mkIntent (Some (lit "dentist")) (Some []) (Some (lit "10:00")) None
               book_intent) APPOINTMENTS _ _));
    [ reflexivity | right; left; reflexivity ].
Defined.

(** ** The greeting branch *)

(** C8: for an intent record of category greeting and any store, the policy
    returns the fixed greeting sentence and the store unchanged, and the
    sentence is the same whatever the store holds. *)
Theorem generate_response_greeting_frame (msg : list N) (r : IntentRecord)
    (st st' : gmap (list N) Booking) :
  intent r = Some (lit "greeting") ->
  generate_response msg r st =
    (lit "Hello! I'm your appointment assistant. I can help you book appointments. What kind of appointment would you like to schedule?",
     st)
  /\ fst (generate_response msg r st') = fst (generate_response msg r st).
Proof.
  intros Hi. rewrite !generate_response_greeting by exact Hi.
  split; reflexivity.
Qed.

Lemma generate_response_greeting_frame_witness :
  generate_response (lit "Hello")
    (mkIntent None None None None (Some (lit "greeting"))) APPOINTMENTS
  = (greeting_text, APPOINTMENTS)
  /\ fst (generate_response (lit "Hello")
            (mkIntent None None None None (Some (lit "greeting"))) ∅)
     = greeting_text.
Proof.
  destruct (generate_response_greeting_frame (lit "Hello")
              (mkIntent None None None None (Some (lit "greeting")))
              APPOINTMENTS ∅ eq_refl) as [H1 H2].
  split; [exact H1 |]. rewrite H2, H1. reflexivity.
Defined.

(** ** The store invariant *)

Lemma all_booked_seed : all_booked APPOINTMENTS.
Proof.
  intros k b. unfold APPOINTMENTS.
  rewrite lookup_insert. case_decide as H1; [intros [= <-]; reflexivity |].
  rewrite lookup_insert. case_decide as H2; [intros [= <-]; reflexivity |].
  rewrite lookup_empty. discriminate.
Qed.

Lemma all_booked_book (d t sv nm : option (list N)) (st : gmap (list N) Booking) :
  all_booked st -> all_booked (snd (book_appointment d t sv nm st)).
Proof.
  intros Hst k b. simpl. rewrite lookup_insert.
  case_decide; [intros [= <-]; reflexivity | apply Hst].
Qed.

(** One step of the policy leaves the store alone or books a free key. *)
Lemma generate_response_store (msg : list N) (r : IntentRecord)
    (st : gmap (list N) Booking) :
  snd (generate_response msg r st) = st \/
  (st !! appointment_key (date r) (time r) = None /\
   snd (generate_response msg r st) =
     snd (book_appointment (date r) (time r) (service_type r) (user_name r) st)).
Proof.
  unfold generate_response.
  case_decide; [left; reflexivity |].
  case_decide; [| left; reflexivity].
  destruct (missing_info _ _ _); [| left; reflexivity].
  destruct (check_availability _ _ st) eqn:Hav; [| left; reflexivity].
  destruct (truthy (user_name r)); [| left; reflexivity].
  right. split; [apply check_availability_true; exact Hav | reflexivity].
Qed.

Lemma all_booked_step (msg : list N) (r : IntentRecord)
    (st : gmap (list N) Booking) :
  all_booked st -> all_booked (snd (generate_response msg r st)).
Proof.
  intros Hst. destruct (generate_response_store msg r st) as [-> | [_ ->]];
    [exact Hst | apply all_booked_book; exact Hst].
Qed.

Lemma dom_step (msg : list N) (r : IntentRecord) (st : gmap (list N) Booking) :
  dom st ⊆ dom (snd (generate_response msg r st)).
Proof.
  destruct (generate_response_store msg r st) as [-> | [_ ->]]; [done |].
  simpl. rewrite dom_insert_L. set_solver.
Qed.

Lemma all_booked_run (turns : list (list N * IntentRecord)) :
  forall st, all_booked st -> all_booked (run turns st).
Proof.
  induction turns as [| [msg r] turns IH]; intros st Hst; simpl.
  - exact Hst.
  - apply IH, all_booked_step, Hst.
Qed.

Lemma dom_run (turns : list (list N * IntentRecord)) :
  forall st, dom st ⊆ dom (run turns st).
Proof.
  induction turns as [| [msg r] turns IH]; intros st; simpl.
  - done.
  - etrans; [apply dom_step | apply IH].
Qed.

(** C9: in every store reached from the initial [APPOINTMENTS] by a sequence
    of policy steps, a key has a record exactly when its slot is reported
    unavailable and every record has its booked flag set; a further
    [book_appointment] keeps every flag set, and further policy steps never
    remove a key. *)
Theorem store_invariant (turns : list (list N * IntentRecord)) :
  let st := run turns APPOINTMENTS in
  (forall d t : option (list N),
     is_Some (st !! appointment_key d t) <-> check_availability d t st = false)
  /\ all_booked st
  /\ (forall d t sv nm : option (list N),
        all_booked (snd (book_appointment d t sv nm st)))
  /\ (forall more, dom st ⊆ dom (run more st)).
Proof.
  intros st.
  assert (Hst : all_booked st) by apply all_booked_run, all_booked_seed.
  split; [| split; [| split]].
  - intros d t. symmetry. apply check_availability_false.
  - exact Hst.
  - intros d t sv nm. apply all_booked_book, Hst.
  - intros more. apply dom_run.
Qed.

(** ** The turn handler *)

Lemma lstrip_blank (x : list N) : forallb isspace x = true -> lstrip x = [].
Proof.
  induction x as [| c x IH]; simpl; [reflexivity |].
  intros [Hc Hx]%andb_true_iff. rewrite Hc. apply IH, Hx.
Qed.

Lemma strip_blank (x : list N) : forallb isspace x = true -> strip x = [].
Proof.
  intros Hx. unfold strip, rstrip. rewrite (lstrip_blank x Hx). reflexivity.
Qed.

Section Turn.

Variable today : list N.
Variable ChatCompletion_create : list N -> list N -> result (list (option (list N))).
Variable json_loads : list N -> result json_value.

(** C7: for a request whose message (the empty string when the key is
    absent) is empty or made of whitespace only, the handler returns
    exactly the reply Please enter a message. and the world is unchanged:
    no request was sent to the completion service and the store is as it
    was. *)
Theorem chat_blank_message (data : gmap (list N) (option (list N)))
    (msg : list N) (w : World) :
  dict_get data (lit "message") (Some []) = Some msg ->
  forallb isspace msg = true ->
  chat today ChatCompletion_create json_loads data w =
    (Ok (mkReply (lit "Please enter a message.") None), w).
Proof.
  intros Hmsg Hblank. unfold chat, try_except, bind.
  rewrite Hmsg. cbn [strip_method ret].
  rewrite (strip_blank msg Hblank). reflexivity.
Qed.

(** C6: [parse_date_time] always returns an intent record and never
    raises; whenever its body raises, whether the call to the service
    raised, the reply had no choice, the content was [None], or the JSON
    decoder raised, the record returned is the default one, with every
    field [None] and intent unclear; the store is never touched. *)
Theorem parse_date_time_total (msg : list N) (w : World) :
  let prompt := system_prompt_head ++ today ++ system_prompt_tail in
  let out := parse_date_time today ChatCompletion_create json_loads msg w in
  (exists r, fst out = Ok r)
  /\ appointments (snd out) = appointments w
  /\ (forall e w',
        parse_date_time_body today ChatCompletion_create json_loads msg w
          = (Raise e, w') ->
        out = (Ok (JObject fallback_intent), w'))
  /\ (forall e, ChatCompletion_create prompt msg = Raise e ->
        fst out = Ok (JObject fallback_intent))
  /\ (ChatCompletion_create prompt msg = Ok [] ->
        fst out = Ok (JObject fallback_intent))
  /\ (forall rest, ChatCompletion_create prompt msg = Ok (None :: rest) ->
        fst out = Ok (JObject fallback_intent))
  /\ (forall content rest e,
        ChatCompletion_create prompt msg = Ok (Some content :: rest) ->
        json_loads (strip content) = Raise e ->
        fst out = Ok (JObject fallback_intent))
  /\ fallback_intent = mkIntent None None None None (Some (lit "unclear")).
Proof.
  intros prompt out. subst out.
  unfold parse_date_time, try_except, parse_date_time_body, bind, create, lift.
  fold prompt.
  destruct (ChatCompletion_create prompt msg) as [[| [content |] rest] | e0];
    cbn [index0 strip_method ret raise fst snd appointments];
    try destruct (json_loads (strip content)) as [r | e1] eqn:Hjson;
    cbn [fst snd appointments];
    (split; [eexists; reflexivity |]);
    (split; [reflexivity |]);
    (split; [intros e w' Hbody; by simplify_eq |]);
    repeat split; intros; simplify_eq; first [done | congruence].
Qed.

(** The handler never raises: whatever its body does, a reply comes back. *)
Lemma chat_never_raises (data : gmap (list N) (option (list N))) (w : World) :
  exists reply w',
    chat today ChatCompletion_create json_loads data w = (Ok reply, w').
Proof.
  unfold chat, try_except.
  match goal with |- context [match ?body with _ => _ end] =>
    destruct body as [[reply | e] w'] end;
    eexists; eexists; reflexivity.
Qed.

(** A message that is not blank is sent to the completion service, once. *)
Lemma chat_extracts (data : gmap (list N) (option (list N)))
    (msg : list N) (w : World) :
  dict_get data (lit "message") (Some []) = Some msg ->
  strip msg <> [] ->
  outbound (snd (chat today ChatCompletion_create json_loads data w)) =
    outbound w ++ [(system_prompt_head ++ today ++ system_prompt_tail, msg)].
Proof.
  intros Hmsg Hstrip. unfold chat, try_except, bind at 1.
  rewrite Hmsg. cbn [strip_method ret fmt].
  rewrite (truthy_Some _ Hstrip). cbn [negb].
  unfold bind, parse_date_time, try_except, parse_date_time_body, bind,
    create, lift, on_appointments.
  destruct (ChatCompletion_create _ msg) as [[| [content |] rest] | e0];
    cbn [index0 strip_method ret raise];
    try destruct (json_loads (strip content)) as [[r |] | e1];
    cbn [get_method ret raise appointments outbound];
    try destruct (generate_response msg r (appointments w));
    reflexivity.
Qed.

End Turn.

(** ** Whole turns on concrete services *)

Example chat_books_turn :
  let alice := mkIntent (Some (lit "dentist")) (Some (lit "2024-09-21"))
                 (Some (lit "10:00")) (Some (lit "Alice")) book_intent in
  let out := chat (lit "2024-09-19") (service_says (lit " {alice} "))
               (decodes (lit "{alice}") (JObject alice))
               {[ lit "message" := Some (lit "book me") ]}
               (mkWorld APPOINTMENTS []) in
  fst out =
    Ok (mkReply (lit "Perfect! Your dentist appointment for 2024-09-21 at 10:00 is confirmed, Alice. Is there anything else I can help you with?")
          (Some (JObject alice)))
  /\ appointments (snd out) !! lit "2024-09-21 10:00"
     = Some (mkBooking (Some (lit "dentist")) (Some (lit "Alice")) true)
  /\ length (outbound (snd out)) = 1.
Proof. vm_compute. repeat split; reflexivity. Qed.

Example chat_not_a_dict :
  chat (lit "2024-09-19") (service_says (lit "[1, 2]"))
    (decodes (lit "[1, 2]") JOther)
    {[ lit "message" := Some (lit "book me") ]} (mkWorld APPOINTMENTS [])
  = (Ok (mkReply (lit "Sorry, I encountered an error. Please try again.") None),
     mkWorld APPOINTMENTS
       [(system_prompt_head ++ lit "2024-09-19" ++ system_prompt_tail,
         lit "book me")]).
Proof. vm_compute. reflexivity. Qed.

Example chat_no_message :
  chat (lit "2024-09-19") (service_says []) (decodes [] JOther) ∅
    (mkWorld APPOINTMENTS [])
  = (Ok (mkReply (lit "Please enter a message.") None), mkWorld APPOINTMENTS []).
Proof. vm_compute. reflexivity. Qed.

Example chat_null_message :
  fst (chat (lit "2024-09-19") (service_says []) (decodes [] JOther)
         {[ lit "message" := None ]} (mkWorld APPOINTMENTS []))
  = Ok (mkReply (lit "Sorry, I encountered an error. Please try again.") None).
Proof. vm_compute. reflexivity. Qed.

Lemma chat_blank_message_witness :
  chat (lit "2024-09-19") (service_says []) (decodes [] JOther)
    {[ lit "message" := Some [32; 9; 10; 160]%N ]} (mkWorld APPOINTMENTS [])
  = (Ok (mkReply (lit "Please enter a message.") None), mkWorld APPOINTMENTS []).
Proof.
  apply (chat_blank_message _ _ _ _ [32; 9; 10; 160]%N);
    vm_compute; reflexivity.
Defined.

Lemma parse_date_time_total_witness :
  fst (parse_date_time (lit "2024-09-19") (service_says (lit "not json"))
         (decodes (lit "{}") (JObject fallback_intent)) (lit "hello")
         (mkWorld APPOINTMENTS []))
  = Ok (JObject fallback_intent).
Proof.
  destruct (parse_date_time_total (lit "2024-09-19")
              (service_says (lit "not json"))
              (decodes (lit "{}") (JObject fallback_intent)) (lit "hello")
              (mkWorld APPOINTMENTS []))
    as (_ & _ & _ & _ & _ & _ & H & _).
  exact (H (lit "not json") [] JSONDecodeError eq_refl eq_refl).
Defined.

(** * Further properties of the slot store *)

Lemma app_space_inj (d1 d2 t1 t2 : list N) :
  32%N ∉ d1 -> 32%N ∉ d2 ->
  d1 ++ 32%N :: t1 = d2 ++ 32%N :: t2 -> d1 = d2 /\ t1 = t2.
Proof.
  revert d2. induction d1 as [| c d1 IH]; intros [| c' d2] H1 H2 Heq;
    simpl in Heq.
  - injection Heq as ->. split; reflexivity.
  - injection Heq as <- _. exfalso. apply H2. left.
  - injection Heq as -> _. exfalso. apply H1. left.
  - injection Heq as -> Heq.
    apply not_elem_of_cons in H1 as [_ H1].
    apply not_elem_of_cons in H2 as [_ H2].
    destruct (IH d2 H1 H2 Heq) as [-> ->]. split; reflexivity.
Qed.

Lemma appointment_key_cons (d t : option (list N)) :
  appointment_key d t = fmt d ++ 32%N :: fmt t.
Proof. reflexivity. Qed.

(** X1: the key separates date and time as long as the dates hold no space:
    two pairs with the same key then print the same date and the same time. *)
Theorem appointment_key_inj (d1 t1 d2 t2 : option (list N)) :
  32%N ∉ fmt d1 -> 32%N ∉ fmt d2 ->
  appointment_key d1 t1 = appointment_key d2 t2 ->
  fmt d1 = fmt d2 /\ fmt t1 = fmt t2.
Proof.
  intros H1 H2. rewrite !appointment_key_cons. apply app_space_inj; assumption.
Qed.

Lemma appointment_key_inj_witness :
  fmt (Some (lit "2024-09-20")) = fmt (Some (lit "2024-09-20"))
  /\ fmt (Some (lit "10:00")) = fmt (Some (lit "10:00")).
Proof.
  apply (appointment_key_inj (Some (lit "2024-09-20")) (Some (lit "10:00"))
           (Some (lit "2024-09-20")) (Some (lit "10:00")));
    [ vm_compute; intros H; repeat (apply elem_of_cons in H as [H | H]; [discriminate |]);
      apply elem_of_nil in H; exact H
    | vm_compute; intros H; repeat (apply elem_of_cons in H as [H | H]; [discriminate |]);
      apply elem_of_nil in H; exact H
    | reflexivity ].
Defined.

(** X2: with a space inside a date the key does not separate the two parts:
    booking the date [d x] at [t] makes the date [d] at the time [x t]
    unavailable, whatever the store was. *)
Theorem appointment_key_aliases (d x t : list N) (sv nm : option (list N))
    (st : gmap (list N) Booking) :
  check_availability (Some d) (Some (x ++ lit " " ++ t))
    (snd (book_appointment (Some (d ++ lit " " ++ x)) (Some t) sv nm st))
  = false.
Proof.
  assert (Hk : appointment_key (Some d) (Some (x ++ lit " " ++ t))
               = appointment_key (Some (d ++ lit " " ++ x)) (Some t)).
  { unfold appointment_key, fmt. rewrite <- !app_assoc. reflexivity. }
  apply check_availability_false. rewrite Hk.
  unfold book_appointment. cbn [snd].
  rewrite lookup_insert_eq. eexists; reflexivity.
Qed.

(** X3: [book_appointment] does not look at the store: on a key that is taken it
    replaces the record by the new one, the number of records stays the
    same, and it returns [True]. *)
Theorem book_appointment_overwrites (d t sv nm : option (list N)) (b : Booking)
    (st : gmap (list N) Booking) :
  st !! appointment_key d t = Some b ->
  let out := book_appointment d t sv nm st in
  fst out = true
  /\ snd out !! appointment_key d t = Some (mkBooking sv nm true)
  /\ size (snd out) = size st
  /\ dom (snd out) = dom st.
Proof.
  intros Hb out. subst out. simpl.
  split; [reflexivity |]. split; [apply lookup_insert_eq |].
  assert (Hdom : dom (<[appointment_key d t := mkBooking sv nm true]> st) = dom st).
  { rewrite dom_insert_L. apply subseteq_union_1_L, singleton_subseteq_l.
    apply elem_of_dom. exists b. exact Hb. }
  split; [| exact Hdom].
  rewrite <- !size_dom, Hdom. reflexivity.
Qed.

Lemma book_appointment_overwrites_witness :
  snd (book_appointment (Some (lit "2024-09-20")) (Some (lit "10:00"))
         (Some (lit "haircut")) (Some (lit "Bob")) APPOINTMENTS)
    !! lit "2024-09-20 10:00"
  = Some (mkBooking (Some (lit "haircut")) (Some (lit "Bob")) true)
  /\ size (snd (book_appointment (Some (lit "2024-09-20")) (Some (lit "10:00"))
                 (Some (lit "haircut")) (Some (lit "Bob")) APPOINTMENTS)) = 2.
Proof.
  destruct (book_appointment_overwrites (Some (lit "2024-09-20"))
              (Some (lit "10:00")) (Some (lit "haircut")) (Some (lit "Bob"))
              (mkBooking (Some (lit "dentist")) (Some (lit "John Doe")) true)
              APPOINTMENTS) as (_ & H2 & H3 & _);
    [ vm_compute; reflexivity | ].
  split; [exact H2 | exact H3].
Defined.

(** X4: booking the same date and time twice leaves the store that the second
    booking alone would leave: the last write wins. *)
Theorem book_appointment_last_wins (d t sv1 nm1 sv2 nm2 : option (list N))
    (st : gmap (list N) Booking) :
  snd (book_appointment d t sv2 nm2 (snd (book_appointment d t sv1 nm1 st)))
  = snd (book_appointment d t sv2 nm2 st).
Proof. simpl. apply insert_insert_eq. Qed.

(** X5: a booking changes one key only: every other key keeps its record, so the
    availability of every slot with another key is what it was. *)
Theorem book_appointment_frame (d t sv nm d' t' : option (list N))
    (st : gmap (list N) Booking) :
  appointment_key d' t' <> appointment_key d t ->
  let st' := snd (book_appointment d t sv nm st) in
  st' !! appointment_key d' t' = st !! appointment_key d' t'
  /\ check_availability d' t' st' = check_availability d' t' st.
Proof.
  intros Hne st'. subst st'. simpl.
  assert (Hl : <[appointment_key d t := mkBooking sv nm true]> st
                 !! appointment_key d' t' = st !! appointment_key d' t')
    by (apply lookup_insert_ne; congruence).
  split; [exact Hl |]. unfold check_availability. rewrite Hl. reflexivity.
Qed.

Lemma book_appointment_frame_witness :
  check_availability (Some (lit "2024-09-20")) (Some (lit "14:00"))
    (snd (book_appointment (Some (lit "2024-09-21")) (Some (lit "14:00"))
            (Some (lit "dentist")) (Some (lit "Alice")) APPOINTMENTS))
  = check_availability (Some (lit "2024-09-20")) (Some (lit "14:00")) APPOINTMENTS.
Proof.
  refine (proj2 (book_appointment_frame (Some (lit "2024-09-21"))
                   (Some (lit "14:00")) (Some (lit "dentist"))
                   (Some (lit "Alice")) (Some (lit "2024-09-20"))
                   (Some (lit "14:00")) APPOINTMENTS _)).
  vm_compute. discriminate.
Defined.

(** X6: bookings of two different keys can be made in either order. *)
Theorem book_appointment_commute (d1 t1 sv1 nm1 d2 t2 sv2 nm2 : option (list N))
    (st : gmap (list N) Booking) :
  appointment_key d1 t1 <> appointment_key d2 t2 ->
  snd (book_appointment d1 t1 sv1 nm1 (snd (book_appointment d2 t2 sv2 nm2 st)))
  = snd (book_appointment d2 t2 sv2 nm2 (snd (book_appointment d1 t1 sv1 nm1 st))).
Proof. intros Hne. simpl. apply insert_insert_ne. exact Hne. Qed.

Lemma book_appointment_commute_witness :
  snd (book_appointment (Some (lit "2024-09-21")) (Some (lit "09:00"))
         (Some (lit "a")) (Some (lit "A"))
         (snd (book_appointment (Some (lit "2024-09-21")) (Some (lit "10:00"))
                 (Some (lit "b")) (Some (lit "B")) APPOINTMENTS)))
  = snd (book_appointment (Some (lit "2024-09-21")) (Some (lit "10:00"))
           (Some (lit "b")) (Some (lit "B"))
           (snd (book_appointment (Some (lit "2024-09-21")) (Some (lit "09:00"))
                   (Some (lit "a")) (Some (lit "A")) APPOINTMENTS))).
Proof.
  apply (book_appointment_commute (Some (lit "2024-09-21")) (Some (lit "09:00"))
           (Some (lit "a")) (Some (lit "A")) (Some (lit "2024-09-21"))
           (Some (lit "10:00")) (Some (lit "b")) (Some (lit "B")) APPOINTMENTS).
  vm_compute. discriminate.
Defined.

(** * Further properties of the dialogue policy *)



Lemma generate_response_subseteq (msg : list N) (r : IntentRecord)
    (st : gmap (list N) Booking) :
  st ⊆ snd (generate_response msg r st).
Proof.
  destruct (generate_response_store msg r st) as [-> | [Hfree ->]]; [done |].
  simpl. apply insert_subseteq. exact Hfree.
Qed.

(** X7: the policy never removes and never rewrites a record: through any
    sequence of turns every record of the store stays as it is. *)
Theorem run_keeps_records (turns : list (list N * IntentRecord))
    (st : gmap (list N) Booking) :
  st ⊆ run turns st.
Proof.
  revert st. induction turns as [| [msg r] turns IH]; intros st; simpl.
  - done.
  - etrans; [apply generate_response_subseteq | apply IH].
Qed.


(** X9: every intent other than the two known strings, be it [None], unclear, or
    a known string in another case, gets the fixed fallback sentence; the
    other fields are not looked at and the store is returned as it was. *)
Theorem generate_response_fallback (msg : list N) (r : IntentRecord)
    (st : gmap (list N) Booking) :
  intent r <> Some (lit "greeting") ->
  intent r <> Some (lit "book_appointment") ->
  generate_response msg r st =
    (lit "I'm here to help you book appointments. Could you please tell me what kind of appointment you need and when you'd like to schedule it?",
     st).
Proof. intros H1 H2. apply generate_response_other; assumption. Qed.

Lemma generate_response_fallback_witness :
  generate_response (lit "hi")
    (mkIntent (Some (lit "dentist")) (Some (lit "2024-09-21"))
       (Some (lit "10:00")) (Some (lit "Alice")) (Some (lit "Book_Appointment")))
    APPOINTMENTS
  = (fallback_text, APPOINTMENTS).
Proof.
  apply (generate_response_fallback (lit "hi")
           (mkIntent (Some (lit "dentist")) (Some (lit "2024-09-21"))
              (Some (lit "10:00")) (Some (lit "Alice"))
              (Some (lit "Book_Appointment"))) APPOINTMENTS);
    vm_compute; discriminate.
Defined.



(** * Further properties of the extraction step and of the turn handler *)

Lemma forallb_rev (f : N -> bool) (l : list N) :
  forallb f (rev l) = forallb f l.
Proof.
  induction l as [| c l IH]; simpl; [reflexivity |].
  rewrite forallb_app, IH. simpl. rewrite andb_true_r. apply andb_comm.
Qed.

Lemma lstrip_nil_inv (x : list N) : lstrip x = [] -> forallb isspace x = true.
Proof.
  induction x as [| c x IH]; simpl; [reflexivity |].
  destruct (isspace c); [exact IH | discriminate].
Qed.

Lemma lstrip_blank_inv (x : list N) :
  forallb isspace (lstrip x) = true -> forallb isspace x = true.
Proof.
  induction x as [| c x IH]; simpl; [reflexivity |].
  destruct (isspace c) eqn:Hc; simpl.
  - exact IH.
  - rewrite Hc. discriminate.
Qed.

Lemma strip_nil_inv (x : list N) : strip x = [] -> forallb isspace x = true.
Proof.
  unfold strip, rstrip. intros H.
  apply (f_equal (@rev N)) in H. rewrite rev_involutive in H. simpl in H.
  apply lstrip_nil_inv in H. rewrite forallb_rev in H.
  apply lstrip_blank_inv. exact H.
Qed.

Lemma snoc_ne {A} (l : list A) (x : A) : l ++ [x] <> l.
Proof.
  intros H. apply (f_equal (@length A)) in H.
  rewrite length_app in H. simpl in H. lia.
Qed.

Section Requests.

Variable today : list N.
Variable ChatCompletion_create : list N -> list N -> result (list (option (list N))).
Variable json_loads : list N -> result json_value.

(** [parse_date_time] in one equation: the body decides the value, the world
    gains the request. *)
Lemma parse_date_time_eq (msg : list N) (w : World) :
  parse_date_time today ChatCompletion_create json_loads msg w =
    (match fst (parse_date_time_body today ChatCompletion_create json_loads msg w) with
     | Ok v => Ok v
     | Raise _ => Ok (JObject fallback_intent)
     end,
     mkWorld (appointments w)
       (outbound w ++ [(system_prompt_head ++ today ++ system_prompt_tail, msg)])).
Proof.
  unfold parse_date_time, try_except, parse_date_time_body, bind, create, lift.
  destruct (ChatCompletion_create _ msg) as [[| [content |] rest] | e0];
    cbn [index0 strip_method ret raise fst];
    try destruct (json_loads (strip content)) as [v | e1];
    reflexivity.
Qed.

Lemma parse_date_time_body_first_choice (msg content : list N)
    (rest : list (option (list N))) (w : World) :
  ChatCompletion_create (system_prompt_head ++ today ++ system_prompt_tail) msg
    = Ok (Some content :: rest) ->
  fst (parse_date_time_body today ChatCompletion_create json_loads msg w)
    = json_loads (strip content).
Proof.
  intros Hc. unfold parse_date_time_body, bind, create, lift.
  rewrite Hc. cbn [index0 strip_method ret].
  destruct (json_loads (strip content)); reflexivity.
Qed.

Lemma parse_date_time_answer (msg content : list N)
    (rest : list (option (list N))) (v : json_value) (w : World) :
  ChatCompletion_create (system_prompt_head ++ today ++ system_prompt_tail) msg
    = Ok (Some content :: rest) ->
  json_loads (strip content) = Ok v ->
  parse_date_time today ChatCompletion_create json_loads msg w =
    (Ok v,
     mkWorld (appointments w)
       (outbound w ++ [(system_prompt_head ++ today ++ system_prompt_tail, msg)])).
Proof.
  intros Hc Hj. rewrite parse_date_time_eq.
  rewrite (parse_date_time_body_first_choice _ _ _ w Hc), Hj.
  reflexivity.
Qed.

(** [chat] on a message that is not blank, in one equation. *)
Lemma chat_eq (data : gmap (list N) (option (list N))) (msg : list N) (w : World) :
  dict_get data (lit "message") (Some []) = Some msg ->
  strip msg <> [] ->
  chat today ChatCompletion_create json_loads data w =
    let w1 := mkWorld (appointments w)
                (outbound w ++ [(system_prompt_head ++ today ++ system_prompt_tail, msg)]) in
    match fst (parse_date_time today ChatCompletion_create json_loads msg w) with
    | Ok (JObject r) =>
        (Ok (mkReply (fst (generate_response msg r (appointments w)))
               (Some (JObject r))),
         mkWorld (snd (generate_response msg r (appointments w))) (outbound w1))
    | _ =>
        (Ok (mkReply (lit "Sorry, I encountered an error. Please try again.") None),
         w1)
    end.
Proof.
  intros Hmsg Hstrip. unfold chat, try_except, bind at 1.
  rewrite Hmsg. cbn [strip_method ret fmt].
  rewrite (truthy_Some _ Hstrip). cbn [negb].
  unfold bind. rewrite parse_date_time_eq. cbn [fst].
  destruct (fst (parse_date_time_body _ _ _ msg w)) as [[r |] | e];
    unfold get_method, on_appointments, ret, raise;
    cbn [appointments outbound];
    try destruct (generate_response msg r (appointments w)); reflexivity.
Qed.

End Requests.

Lemma generate_response_unclear (msg : list N) (st : gmap (list N) Booking) :
  generate_response msg fallback_intent st = (fallback_text, st).
Proof.
  apply generate_response_other; unfold book_intent; simpl;
    intros [= H]; vm_compute in H; discriminate.
Qed.

Section Endpoints.

Variable today : list N.
Variable ChatCompletion_create : list N -> list N -> result (list (option (list N))).
Variable json_loads : list N -> result json_value.

(** X11: when the service answers, [parse_date_time] returns what [json.loads]
    makes of the stripped content of the first choice, whatever the other
    choices hold; the calendar is not touched and the request is recorded. *)
Theorem parse_date_time_success (msg content : list N)
    (rest : list (option (list N))) (v : json_value) (w : World) :
  ChatCompletion_create (system_prompt_head ++ today ++ system_prompt_tail) msg
    = Ok (Some content :: rest) ->
  json_loads (strip content) = Ok v ->
  parse_date_time today ChatCompletion_create json_loads msg w =
    (Ok v,
     mkWorld (appointments w)
       (outbound w ++ [(system_prompt_head ++ today ++ system_prompt_tail, msg)])).
Proof.
  intros Hc Hj.
  apply (parse_date_time_answer today ChatCompletion_create json_loads
           msg content rest v w Hc Hj).
Qed.

(** X12: whatever the service and the decoder do, one call of [parse_date_time]
    sends exactly one request, made of the prompt with the date of the day
    and of the message as it was given; there is no second attempt, and the
    calendar is not touched. *)
Theorem parse_date_time_one_request (msg : list N) (w : World) :
  snd (parse_date_time today ChatCompletion_create json_loads msg w) =
    mkWorld (appointments w)
      (outbound w ++ [(system_prompt_head ++ today ++ system_prompt_tail, msg)]).
Proof. rewrite parse_date_time_eq. reflexivity. Qed.

(** X13: a whole turn: for a message that is not blank, when the service answers
    and the decoder returns a dict, the reply of [chat] is the sentence of
    [generate_response] for the message as given (not stripped), that dict
    and the current calendar, together with the dict; the calendar becomes
    the one [generate_response] leaves and one request was sent. *)
Theorem chat_turn (data : gmap (list N) (option (list N)))
    (msg content : list N) (rest : list (option (list N)))
    (r : IntentRecord) (w : World) :
  dict_get data (lit "message") (Some []) = Some msg ->
  strip msg <> [] ->
  ChatCompletion_create (system_prompt_head ++ today ++ system_prompt_tail) msg
    = Ok (Some content :: rest) ->
  json_loads (strip content) = Ok (JObject r) ->
  chat today ChatCompletion_create json_loads data w =
    (Ok (mkReply (fst (generate_response msg r (appointments w)))
           (Some (JObject r))),
     mkWorld (snd (generate_response msg r (appointments w)))
       (outbound w ++ [(system_prompt_head ++ today ++ system_prompt_tail, msg)])).
Proof.
  intros Hmsg Hstrip Hc Hj. rewrite (chat_eq _ _ _ _ msg w Hmsg Hstrip).
  rewrite (parse_date_time_answer _ _ _ msg content rest (JObject r) w Hc Hj).
  reflexivity.
Qed.

(** X14: when the extraction fails (the body of [parse_date_time] raises), the
    turn still answers: the reply is the fixed fallback sentence with the
    default record, the calendar is unchanged and one request was sent. *)
Theorem chat_degrades (data : gmap (list N) (option (list N)))
    (msg : list N) (e : exn) (w : World) :
  dict_get data (lit "message") (Some []) = Some msg ->
  strip msg <> [] ->
  fst (parse_date_time_body today ChatCompletion_create json_loads msg w)
    = Raise e ->
  chat today ChatCompletion_create json_loads data w =
    (Ok (mkReply (lit "I'm here to help you book appointments. Could you please tell me what kind of appointment you need and when you'd like to schedule it?")
           (Some (JObject fallback_intent))),
     mkWorld (appointments w)
       (outbound w ++ [(system_prompt_head ++ today ++ system_prompt_tail, msg)])).
Proof.
  intros Hmsg Hstrip Hbody. rewrite (chat_eq _ _ _ _ msg w Hmsg Hstrip).
  rewrite parse_date_time_eq, Hbody. cbn [fst].
  rewrite generate_response_unclear. reflexivity.
Qed.

(** X15: when the decoded answer is valid JSON but no dict, [generate_response]
    raises on its first line and the turn answers with the apology; the
    calendar is unchanged and the request has been sent. *)
Theorem chat_not_dict (data : gmap (list N) (option (list N)))
    (msg content : list N) (rest : list (option (list N))) (w : World) :
  dict_get data (lit "message") (Some []) = Some msg ->
  strip msg <> [] ->
  ChatCompletion_create (system_prompt_head ++ today ++ system_prompt_tail) msg
    = Ok (Some content :: rest) ->
  json_loads (strip content) = Ok JOther ->
  chat today ChatCompletion_create json_loads data w =
    (Ok (mkReply (lit "Sorry, I encountered an error. Please try again.") None),
     mkWorld (appointments w)
       (outbound w ++ [(system_prompt_head ++ today ++ system_prompt_tail, msg)])).
Proof.
  intros Hmsg Hstrip Hc Hj. rewrite (chat_eq _ _ _ _ msg w Hmsg Hstrip).
  rewrite (parse_date_time_answer _ _ _ msg content rest JOther w Hc Hj).
  reflexivity.
Qed.

(** X16: a request whose message is JSON null (the key is there, so the default
    is not used) gets the apology: [None] has no [strip]; nothing is sent and
    the world is unchanged. *)
Theorem chat_null (data : gmap (list N) (option (list N))) (w : World) :
  data !! lit "message" = Some None ->
  chat today ChatCompletion_create json_loads data w =
    (Ok (mkReply (lit "Sorry, I encountered an error. Please try again.") None), w).
Proof.
  intros Hd. unfold chat, try_except, bind, dict_get. rewrite Hd. reflexivity.
Qed.

(** X17: for a request whose message is a string, no request is sent to the
    service exactly when the message is empty or all whitespace. *)
Theorem chat_sends_iff (data : gmap (list N) (option (list N)))
    (msg : list N) (w : World) :
  dict_get data (lit "message") (Some []) = Some msg ->
  (outbound (snd (chat today ChatCompletion_create json_loads data w))
     = outbound w
   <-> forallb isspace msg = true).
Proof.
  intros Hmsg. split.
  - intros Hout. destruct (strip msg) as [| c s] eqn:Hs.
    + apply strip_nil_inv. exact Hs.
    + exfalso.
      assert (Hne : strip msg <> []) by (rewrite Hs; discriminate).
      rewrite (chat_eq _ _ _ _ msg w Hmsg Hne) in Hout.
      cbv zeta in Hout.
      destruct (fst (parse_date_time _ _ _ msg w)) as [[r |] | e];
        cbn [snd outbound] in Hout; exact (snoc_ne _ _ Hout).
  - intros Hblank. unfold chat, try_except, bind.
    rewrite Hmsg. cbn [strip_method ret].
    rewrite (strip_blank msg Hblank). reflexivity.
Qed.

(** X18: a booking made through [POST /chat] is what [GET /appointments] shows:
    when the decoded dict asks to book with non-empty service, date, time
    and name and the key is free, the reply is the confirmation and the
    store sent back afterwards holds the new record and every older one. *)
Theorem booking_visible (data : gmap (list N) (option (list N)))
    (msg content sv d t nm : list N) (rest : list (option (list N)))
    (w : World) :
  dict_get data (lit "message") (Some []) = Some msg ->
  strip msg <> [] ->
  ChatCompletion_create (system_prompt_head ++ today ++ system_prompt_tail) msg
    = Ok (Some content :: rest) ->
  json_loads (strip content)
    = Ok (JObject (mkIntent (Some sv) (Some d) (Some t) (Some nm) book_intent)) ->
  sv <> [] -> d <> [] -> t <> [] -> nm <> [] ->
  appointments w !! (d ++ lit " " ++ t) = None ->
  let out := chat today ChatCompletion_create json_loads data w in
  fst out =
    Ok (mkReply
          (lit "Perfect! Your " ++ sv ++ lit " appointment for " ++ d
             ++ lit " at " ++ t ++ lit " is confirmed, " ++ nm
             ++ lit ". Is there anything else I can help you with?")
          (Some (JObject
                   (mkIntent (Some sv) (Some d) (Some t) (Some nm) book_intent))))
  /\ exists st,
       view_appointments (snd out) = (Ok st, snd out)
       /\ st !! (d ++ lit " " ++ t) = Some (mkBooking (Some sv) (Some nm) true)
       /\ appointments w ⊆ st.
Proof.
  intros Hmsg Hstrip Hc Hj Hsv Hd Ht Hnm Hfree out. subst out.
  rewrite (chat_eq _ _ _ _ msg w Hmsg Hstrip).
  rewrite (parse_date_time_answer _ _ _ msg content rest _ w Hc Hj).
  cbv zeta. cbn [fst snd]. booking_branch.
  replace (check_availability (Some d) (Some t) (appointments w)) with true
    by (symmetry; apply check_availability_true; exact Hfree).
  rewrite (truthy_Some nm Hnm). cbn [fst snd].
  split; [reflexivity |].
  eexists. split; [reflexivity |]. cbn [appointments].
  split; [apply lookup_insert_eq | apply insert_subseteq; exact Hfree].
Qed.

End Endpoints.

(** ** The endpoints on concrete services *)

Lemma parse_date_time_success_witness :
  parse_date_time (lit "2024-09-19") (service_says (lit "  [1, 2] "))
    (decodes (lit "[1, 2]") JOther) (lit "hello") (mkWorld APPOINTMENTS [])
  = (Ok JOther,
     mkWorld APPOINTMENTS
       [(system_prompt_head ++ lit "2024-09-19" ++ system_prompt_tail, lit "hello")]).
Proof.
  apply (parse_date_time_success (lit "2024-09-19")
           (service_says (lit "  [1, 2] ")) (decodes (lit "[1, 2]") JOther)
           (lit "hello") (lit "  [1, 2] ") [] JOther (mkWorld APPOINTMENTS []));
    reflexivity.
Defined.

Lemma chat_turn_witness :
  chat (lit "2024-09-19") (service_says (lit "{hi}"))
    (decodes (lit "{hi}")
       (JObject (mkIntent None None None None (Some (lit "greeting")))))
    {[ lit "message" := Some (lit " Hello ") ]} (mkWorld APPOINTMENTS [])
  = (Ok (mkReply greeting_text
           (Some (JObject (mkIntent None None None None (Some (lit "greeting")))))),
     mkWorld APPOINTMENTS
       [(system_prompt_head ++ lit "2024-09-19" ++ system_prompt_tail,
         lit " Hello ")]).
Proof.
  apply (chat_turn (lit "2024-09-19") (service_says (lit "{hi}"))
           (decodes (lit "{hi}")
              (JObject (mkIntent None None None None (Some (lit "greeting")))))
           {[ lit "message" := Some (lit " Hello ") ]} (lit " Hello ")
           (lit "{hi}") []
           (mkIntent None None None None (Some (lit "greeting")))
           (mkWorld APPOINTMENTS []));
    solve [ reflexivity | vm_compute; discriminate ].
Defined.

Lemma chat_degrades_witness :
  fst (chat (lit "2024-09-19") (fun _ _ => Raise OpenAIError)
         (decodes [] JOther)
         {[ lit "message" := Some (lit "book me") ]} (mkWorld APPOINTMENTS []))
  = Ok (mkReply fallback_text (Some (JObject fallback_intent))).
Proof.
  rewrite (chat_degrades (lit "2024-09-19") (fun _ _ => Raise OpenAIError)
             (decodes [] JOther)
             {[ lit "message" := Some (lit "book me") ]} (lit "book me")
             OpenAIError (mkWorld APPOINTMENTS []));
    solve [ reflexivity | vm_compute; discriminate ].
Defined.

Lemma chat_not_dict_witness :
  fst (chat (lit "2024-09-19") (service_says (lit "[1, 2]"))
         (decodes (lit "[1, 2]") JOther)
         {[ lit "message" := Some (lit "book me") ]} (mkWorld APPOINTMENTS []))
  = Ok (mkReply (lit "Sorry, I encountered an error. Please try again.") None).
Proof.
  rewrite (chat_not_dict (lit "2024-09-19") (service_says (lit "[1, 2]"))
             (decodes (lit "[1, 2]") JOther)
             {[ lit "message" := Some (lit "book me") ]} (lit "book me")
             (lit "[1, 2]") [] (mkWorld APPOINTMENTS []));
    solve [ reflexivity | vm_compute; discriminate ].
Defined.

Lemma chat_null_witness :
  chat (lit "2024-09-19") (service_says []) (decodes [] JOther)
    {[ lit "message" := None ]} (mkWorld APPOINTMENTS [])
  = (Ok (mkReply (lit "Sorry, I encountered an error. Please try again.") None),
     mkWorld APPOINTMENTS []).
Proof.
  apply (chat_null (lit "2024-09-19") (service_says []) (decodes [] JOther)
           {[ lit "message" := None ]} (mkWorld APPOINTMENTS [])).
  reflexivity.
Defined.

Lemma chat_sends_iff_witness :
  outbound (snd (chat (lit "2024-09-19") (service_says []) (decodes [] JOther)
                   {[ lit "message" := Some [32; 12288]%N ]}
                   (mkWorld APPOINTMENTS [])))
  = [].
Proof.
  apply (chat_sends_iff (lit "2024-09-19") (service_says []) (decodes [] JOther)
           {[ lit "message" := Some [32; 12288]%N ]} [32; 12288]%N
           (mkWorld APPOINTMENTS []));
    reflexivity.
Defined.

Lemma booking_visible_witness :
  exists st,
    view_appointments
      (snd (chat (lit "2024-09-19") (service_says (lit "{alice}"))
              (decodes (lit "{alice}")
                 (JObject (mkIntent (Some (lit "dentist")) (Some (lit "2024-09-21"))
                             (Some (lit "10:00")) (Some (lit "Alice")) book_intent)))
              {[ lit "message" := Some (lit "book me") ]}
              (mkWorld APPOINTMENTS [])))
    = (Ok st,
       snd (chat (lit "2024-09-19") (service_says (lit "{alice}"))
              (decodes (lit "{alice}")
                 (JObject (mkIntent (Some (lit "dentist")) (Some (lit "2024-09-21"))
                             (Some (lit "10:00")) (Some (lit "Alice")) book_intent)))
              {[ lit "message" := Some (lit "book me") ]}
              (mkWorld APPOINTMENTS [])))
    /\ st !! lit "2024-09-21 10:00"
       = Some (mkBooking (Some (lit "dentist")) (Some (lit "Alice")) true)
    /\ APPOINTMENTS ⊆ st.
Proof.
  refine (proj2 (booking_visible (lit "2024-09-19") (service_says (lit "{alice}"))
            (decodes (lit "{alice}")
               (JObject (mkIntent (Some (lit "dentist")) (Some (lit "2024-09-21"))
                           (Some (lit "10:00")) (Some (lit "Alice")) book_intent)))
            {[ lit "message" := Some (lit "book me") ]} (lit "book me")
            (lit "{alice}") (lit "dentist") (lit "2024-09-21") (lit "10:00")
            (lit "Alice") [] (mkWorld APPOINTMENTS []) _ _ _ _ _ _ _ _ _));
    solve [ reflexivity | vm_compute; discriminate | vm_compute; reflexivity ].
Defined.

(** * The process over many requests *)

(** What one request can do to the world, whatever the service answers. *)
Lemma chat_safe (today : list N)
    (ChatCompletion_create : list N -> list N -> result (list (option (list N))))
    (json_loads : list N -> result json_value)
    (data : gmap (list N) (option (list N))) (w : World) :
  exists reply w',
    chat today ChatCompletion_create json_loads data w = (Ok reply, w')
    /\ appointments w ⊆ appointments w'
    /\ (all_booked (appointments w) -> all_booked (appointments w'))
    /\ (outbound w' = outbound w \/ exists x, outbound w' = outbound w ++ [x]).
Proof.
  destruct (dict_get data (lit "message") (Some [])) as [msg |] eqn:Hmsg.
  - destruct (strip msg) as [| c s] eqn:Hs.
    + exists (mkReply (lit "Please enter a message.") None), w.
      split; [| split; [done | split; [tauto | left; reflexivity]]].
      unfold chat, try_except, bind. rewrite Hmsg. cbn [strip_method ret].
      rewrite Hs. reflexivity.
    + assert (Hne : strip msg <> []) by (rewrite Hs; discriminate).
      rewrite (chat_eq _ _ _ _ msg w Hmsg Hne). cbv zeta.
      destruct (fst (parse_date_time _ _ _ msg w)) as [[r |] | e];
        eexists; eexists; (split; [reflexivity |]); cbn [appointments outbound];
        (split; [first [apply generate_response_subseteq | done] |]);
        (split; [first [apply all_booked_step | tauto] |]);
        right; eexists; reflexivity.
  - exists (mkReply (lit "Sorry, I encountered an error. Please try again.") None), w.
    split; [| split; [done | split; [tauto | left; reflexivity]]].
    unfold chat, try_except, bind. rewrite Hmsg. reflexivity.
Qed.

(** X19: the process as a whole: over any sequence of requests, whatever the
    service and the decoder do at each of them, every request gets a reply
    (none ends in an exception), no record of the calendar is removed or
    rewritten, the booked flags stay set, and at most one request per turn
    goes out to the service, after those already sent. *)
Theorem serve_invariant (turns : list Turn) (w : World) :
  let out := serve turns w in
  Forall (fun reply => exists a, reply = Ok a) (fst out)
  /\ length (fst out) = length turns
  /\ appointments w ⊆ appointments (snd out)
  /\ (all_booked (appointments w) -> all_booked (appointments (snd out)))
  /\ outbound w `prefix_of` outbound (snd out)
  /\ length (outbound (snd out)) <= length (outbound w) + length turns.
Proof.
  cbv zeta. revert w. induction turns as [| t turns IH]; intros w.
  - simpl. repeat split; [constructor | done | tauto | done | lia].
  - cbn [serve].
    destruct (chat_safe (turn_today t) (turn_service t) (turn_decoder t)
                (turn_data t) w) as (reply & w1 & -> & Hsub & Hall & Hout).
    specialize (IH w1).
    destruct (serve turns w1) as [replies w2]. cbn [fst snd] in *.
    destruct IH as (IH1 & IH2 & IH3 & IH4 & IH5 & IH6).
    split; [constructor; [eexists; reflexivity | exact IH1] |].
    split; [simpl; rewrite IH2; reflexivity |].
    split; [etrans; eassumption |].
    split; [tauto |].
    destruct Hout as [Ho | [x Ho]]; rewrite Ho in *.
    + split; [exact IH5 | simpl; lia].
    + split; [etrans; [apply prefix_app_r; reflexivity | exact IH5] |].
      rewrite length_app in IH6. simpl in *. lia.
Qed.

Example serve_two_requests :
  let alice := mkIntent (Some (lit "dentist")) (Some (lit "2024-09-21"))
                 (Some (lit "10:00")) (Some (lit "Alice")) book_intent in
  let out :=
    serve [ mkTurn (lit "2024-09-19") (service_says (lit "{alice}"))
              (decodes (lit "{alice}") (JObject alice))
              {[ lit "message" := Some (lit "book me") ]};
            mkTurn (lit "2024-09-19") (fun _ _ => Raise OpenAIError)
              (decodes [] JOther) {[ lit "message" := Some (lit "and me") ]} ]
      (mkWorld APPOINTMENTS []) in
  length (fst out) = 2
  /\ size (appointments (snd out)) = 3
  /\ length (outbound (snd out)) = 2.
Proof. vm_compute. repeat split; reflexivity. Qed.
